(** * MathFinder: the packaging script [setup.py]

    A shallow embedding of [src/server/setup.py] and the properties of the
    single [setup(...)] call it makes.

    The script is module-level Python: three string assignments, the
    computation of [here], the helper [read], the read of [README.md] and
    then the call of [setuptools.setup] with keyword arguments.  It is
    embedded as a computation in a small exception-and-log monad: the log
    records every call of [setup] together with its keyword arguments, so
    that "what is passed to setup" and "setup is never called" are both
    statements about the result of running the script.

    What the script meets outside itself is an environment: the path it was
    started under, the current directory, what the open of each path finds,
    the packages found, and how a call of [setup] ends. *)

From Stdlib Require Import String Ascii List Bool Arith.
Import ListNotations.
Open Scope string_scope.

(** ** Python strings *)

Module Str.

(** ASCII white space as [str.strip] and the regex class [\s] see it. *)
Definition is_space (c : ascii) : bool :=
  let n := nat_of_ascii c in
  ((n =? 32) || ((9 <=? n) && (n <=? 13)) || ((28 <=? n) && (n <=? 31)))%nat.

(** The ASCII part of the regex class [\w]. *)
Definition is_word (c : ascii) : bool :=
  let n := nat_of_ascii c in
  (((48 <=? n) && (n <=? 57)) || ((65 <=? n) && (n <=? 90))
   || ((97 <=? n) && (n <=? 122)) || (n =? 95))%nat.

Fixpoint all (f : ascii -> bool) (s : string) : bool :=
  match s with
  | EmptyString => true
  | String c r => f c && all f r
  end.

Definition nonempty (s : string) : bool :=
  match s with EmptyString => false | String _ _ => true end.

(** [s.lstrip()] and [s.rstrip()], with the set of stripped characters
    given as a predicate. *)
Fixpoint lstrip_by (f : ascii -> bool) (s : string) : string :=
  match s with
  | EmptyString => EmptyString
  | String c r => if f c then lstrip_by f r else s
  end.

Fixpoint rstrip_by (f : ascii -> bool) (s : string) : string :=
  match s with
  | EmptyString => EmptyString
  | String c r =>
      match rstrip_by f r with
      | EmptyString => if f c then EmptyString else String c EmptyString
      | r' => String c r'
      end
  end.

Definition lstrip := lstrip_by is_space.
Definition rstrip := rstrip_by is_space.
Definition strip (s : string) : string := rstrip (lstrip s).

(** [s.partition(sep)] for a one-character separator, [None] when the
    separator does not occur. *)
Fixpoint partition (sep : ascii) (s : string) : option (string * string) :=
  match s with
  | EmptyString => None
  | String c r =>
      if Ascii.eqb c sep then Some (EmptyString, r)
      else match partition sep r with
           | Some (l, r') => Some (String c l, r')
           | None => None
           end
  end.

(** [s.split(sep)] for a one-character separator. *)
Fixpoint split (sep : ascii) (s : string) : list string :=
  match s with
  | EmptyString => [EmptyString]
  | String c r =>
      if Ascii.eqb c sep then EmptyString :: split sep r
      else match split sep r with
           | h :: t => String c h :: t
           | [] => [String c EmptyString]
           end
  end.

(** [s.endswith(c)] for a character [c]. *)
Fixpoint endswith (c : ascii) (s : string) : bool :=
  match s with
  | EmptyString => false
  | String a EmptyString => Ascii.eqb a c
  | String _ r => endswith c r
  end.

(** The longest prefix whose characters satisfy [f], and the rest. *)
Fixpoint span (f : ascii -> bool) (s : string) : string * string :=
  match s with
  | EmptyString => (EmptyString, EmptyString)
  | String c r =>
      if f c then let '(p, q) := span f r in (String c p, q)
      else (EmptyString, s)
  end.

(** [s[n:]]. *)
Fixpoint drop (n : nat) (s : string) : string :=
  match n, s with
  | O, _ => s
  | S _, EmptyString => EmptyString
  | S m, String _ r => drop m r
  end.

End Str.

(** A formatted string literal [f'...']: literal text and replacement
    fields.  Every replacement field of the script holds a [str], whose
    formatting with the empty format spec is the string itself. *)
Inductive fpart : Type :=
| Lit (text : string)
| Field (val : string).

Definition fstring (parts : list fpart) : string :=
  String.concat "" (map (fun p => match p with Lit t => t | Field v => v end) parts).

(** ** Python values that occur as arguments of [setup] *)

#[warnings="-register-all"]
Inductive value : Type :=
| VStr (s : string)
| VBool (b : bool)
| VList (xs : list value)
| VDict (items : list (string * value)).

(** A [dict] with string keys, in insertion order. *)
Definition dict := list (string * value).

Fixpoint dict_get (d : dict) (k : string) : option value :=
  match d with
  | [] => None
  | (k', v) :: r => if k' =? k then Some v else dict_get r k
  end.

(** [d[k] = v]: an existing key keeps its place. *)
Fixpoint dict_setitem (d : dict) (k : string) (v : value) : dict :=
  match d with
  | [] => [(k, v)]
  | (k', v') :: r => if k' =? k then (k', v) :: r else (k', v') :: dict_setitem r k v
  end.

(** A dict display [{k1: v1, ...}]: items are stored left to right. *)
Definition dict_display (items : list (string * value)) : value :=
  VDict (fold_left (fun d kv => dict_setitem d (fst kv) (snd kv)) items []).

Definition str_list (l : list string) : value := VList (map VStr l).

(** The keyword arguments of one call, in the order written. *)
Definition kwargs := list (string * value).

Definition kwarg (kw : kwargs) (name : string) : option value := dict_get kw name.

Definition keywords (kw : kwargs) : list string := map fst kw.

(** Reading a value back as a list of strings. *)
Fixpoint as_strings (xs : list value) : option (list string) :=
  match xs with
  | [] => Some []
  | VStr s :: r =>
      match as_strings r with Some l => Some (s :: l) | None => None end
  | _ :: _ => None
  end.

Definition as_str_list (v : value) : option (list string) :=
  match v with VList xs => as_strings xs | _ => None end.

(** ** [os.path]

    The script uses three functions of [os.path], whose behaviour depends on
    the platform.  The script is embedded over an arbitrary implementation;
    [posixpath] below is the one of POSIX systems.  [abspath] consults the
    current directory, which it receives as its first argument here. *)

Class OsPath : Type := {
  path_join : string -> list string -> string;
  path_dirname : string -> string;
  path_abspath : string -> string -> string
}.

Module posixpath.

Definition sep : ascii := "/"%char.

Definition is_sep (c : ascii) : bool := Ascii.eqb c sep.

Definition isabs (p : string) : bool :=
  match p with String c _ => is_sep c | EmptyString => false end.

(** One step of the loop of [join]: a component that starts with the
    separator replaces the path built so far. *)
Definition join_step (path b : string) : string :=
  if isabs b then b
  else if negb (Str.nonempty path) || Str.endswith sep path then path ++ b
  else path ++ String sep b.

Definition join (a : string) (p : list string) : string := fold_left join_step p a.

(** [p[:p.rfind('/') + 1]]: the part of [p] up to and including the last
    separator, empty when there is none. *)
Fixpoint head_of (p : string) : string :=
  match p with
  | EmptyString => EmptyString
  | String c r =>
      match head_of r with
      | EmptyString => if is_sep c then String c EmptyString else EmptyString
      | h => String c h
      end
  end.

Definition dirname (p : string) : string :=
  let head := head_of p in
  if Str.nonempty head && negb (Str.all is_sep head)
  then Str.rstrip_by is_sep head
  else head.

(** The loop of [normpath] over the components, [initial_slashes] being 0,
    1 or 2. *)
Definition norm_step (initial_slashes : nat) (new_comps : list string) (comp : string)
  : list string :=
  if (comp =? "") || (comp =? ".") then new_comps
  else if negb (comp =? "..")
          || ((initial_slashes =? 0)%nat && (length new_comps =? 0)%nat)
          || (negb (length new_comps =? 0)%nat && (last new_comps "" =? ".."))
  then new_comps ++ [comp]
  else removelast new_comps.

Definition normpath (path : string) : string :=
  if path =? "" then "."
  else
    let initial_slashes :=
      if isabs path then
        if prefix "//" path && negb (prefix "///" path) then 2 else 1
      else 0 in
    let comps := fold_left (norm_step initial_slashes) (Str.split sep path) [] in
    let path' := String.concat "/" comps in
    let path' := String.concat "" (repeat "/" initial_slashes) ++ path' in
    if path' =? "" then "." else path'.

Definition abspath (cwd path : string) : string :=
  normpath (if isabs path then path else join cwd [path]).

#[global] Instance os_path : OsPath := {
  path_join := join;
  path_dirname := dirname;
  path_abspath := abspath
}.

End posixpath.

(** A character other than the POSIX separator. *)
Definition not_sep (c : ascii) : bool := negb (posixpath.is_sep c).

(** A component of a normalised path: not empty, and free of separators. *)
Definition component (s : string) : Prop :=
  Str.nonempty s = true /\ Str.all not_sep s = true.

(** The part of a script path that precedes the file name: empty, or
    ending with a separator. *)
Definition directory_prefix (head : string) : bool :=
  negb (Str.nonempty head) || Str.endswith posixpath.sep head.

(** The name of a file in its directory: a component other than [.] and
    [..]. *)
Definition file_name (name : string) : bool :=
  Str.nonempty name && Str.all not_sep name && negb (name =? ".") && negb (name =? "..").

(** The number of separators an absolute path keeps at its front when it
    is normalised: two when it starts with exactly two, otherwise one. *)
Definition leading_slashes (path : string) : nat :=
  if prefix "//" path && negb (prefix "///" path) then 2 else 1.

(** [n] separators in a row. *)
Definition slashes (n : nat) : string := String.concat "" (repeat "/" n).

(** ** Exceptions *)

(** The exceptions of a run: those of the open ([OSError] and its
    subclasses, [ValueError] for a name the interpreter refuses), of the
    read, and what [setup] itself may raise. *)
Inductive exn : Type :=
| FileNotFoundError (filename : string)
| IsADirectoryError (filename : string)
| NotADirectoryError (filename : string)
| PermissionError (filename : string)
| OSError (errno : nat) (filename : string)
| ValueError
| UnicodeDecodeError
| SystemExit (message : string).

Inductive outcome (A : Type) : Type :=
| Returned (a : A)
| Raised (e : exn).
Arguments Returned {A} a.
Arguments Raised {A} e.

(** ** The environment of a run *)

(** What the open of a path meets.  [RegularFile text] is a regular file
    that the process may read and whose bytes decode, in the default
    encoding, to [text]: the text that reading it in text mode yields.  The
    other cases are a directory, a regular file whose bytes do not decode, a
    file the process may not open, a path that continues below something
    that is not a directory, a name the interpreter refuses (an embedded
    null character), and any other failure of the system call, with its
    error number. *)
Inductive node : Type :=
| RegularFile (text : string)
| Directory
| Undecodable
| Unreadable
| BelowNonDirectory
| InvalidName
| Unopenable (errno : nat).

(** [__file__] is the path under which the script was started, [getcwd]
    the current directory, [lookup] the file system as seen through path
    names ([None]: no such file or directory), [find_packages] what
    [setuptools.find_packages()] returns in the current directory, and
    [setup_raises] what a call of [setuptools.setup] with given arguments
    ends with ([None]: it returns). *)
Record Env : Type := {
  __file__ : string;
  getcwd : string;
  lookup : string -> option node;
  find_packages : list string;
  setup_raises : kwargs -> option exn
}.

(** ** The log of [setup] calls *)

(** A computation starts from the calls of [setup] made so far and yields
    an outcome and the calls made up to then. *)
Definition Py (A : Type) : Type := list kwargs -> outcome A * list kwargs.

Definition ret {A} (a : A) : Py A := fun calls => (Returned a, calls).

Definition raise {A} (e : exn) : Py A := fun calls => (Raised e, calls).

Definition bind {A B} (m : Py A) (k : A -> Py B) : Py B :=
  fun calls =>
    match m calls with
    | (Returned a, calls') => k a calls'
    | (Raised e, calls') => (Raised e, calls')
    end.

Notation "x <- m ;; k" := (bind m (fun x => k))
  (at level 61, m at next level, right associativity).

(** [setuptools.setup] called with keyword arguments, as far as the script
    is concerned: the call is recorded with its arguments, and then either
    returns or raises. *)
Definition setup (env : Env) (kw : kwargs) : Py unit :=
  fun calls =>
    (match setup_raises env kw with
     | None => Returned tt
     | Some e => Raised e
     end,
     (calls ++ [kw])%list).

(** An open text file: the text its bytes decode to, if they do, and the
    read position. *)
Record file : Type := { f_text : option string; f_pos : nat }.

(** [codecs.open(filename, 'r')]: without an encoding this is the built-in
    [open] in text mode.  Nothing is decoded before the first read. *)
Definition codecs_open (env : Env) (filename : string) : Py file :=
  match lookup env filename with
  | None => raise (FileNotFoundError filename)
  | Some Directory => raise (IsADirectoryError filename)
  | Some BelowNonDirectory => raise (NotADirectoryError filename)
  | Some Unreadable => raise (PermissionError filename)
  | Some (Unopenable errno) => raise (OSError errno filename)
  | Some InvalidName => raise ValueError
  | Some Undecodable => ret {| f_text := None; f_pos := 0 |}
  | Some (RegularFile text) => ret {| f_text := Some text; f_pos := 0 |}
  end.

(** [fp.read()]: everything from the read position to the end, decoded. *)
Definition file_read (fp : file) : Py string :=
  match f_text fp with
  | Some text => ret (Str.drop (f_pos fp) text)
  | None => raise UnicodeDecodeError
  end.

(** ** The script *)

Section Script.

Context `{OsPath}.
Variable env : Env.

(** Line 7 binds [entrypoint] to a string literal; everything below it is
    written in terms of that variable, and is embedded as a function of its
    value. *)
Variable entrypoint : string.

Definition pkg_name : string := entrypoint.

Definition description : string := "HTTP Interface for MathFinder".

Definition here : string := path_abspath (getcwd env) (path_dirname (__file__ env)).

(** The [with] block also closes the file on the way out, which nothing in
    the script observes. *)
Definition read (parts : list string) : Py string :=
  fp <- codecs_open env (path_join here parts) ;;
  file_read fp.

(** The keyword arguments of the call of [setup], given the value of
    [long_description]. *)
Definition setup_arguments (long_description : string) : kwargs :=
  [ ("name", VStr pkg_name);
    ("install_requires", str_list ["tornado"; "connexion"; "swagger-ui-bundle"]);
    ("entry_points",
      dict_display
        [ ("console_scripts",
            str_list
              [ fstring [Field entrypoint; Lit " = "; Field pkg_name; Lit ".server:main"] ]) ]);
    ("package_data", dict_display [ (pkg_name, str_list ["openapi/*.yaml"]) ]);
    ("packages", str_list (find_packages env));
    ("url", VStr "");
    ("license", VStr "TBD");
    ("description", VStr description);
    ("long_description", VStr long_description);
    ("zip_safe", VBool true);
    ("classifiers",
      str_list
        [ "Development Status :: 3 - Alpha";
          "Intended Audience :: Developers";
          "Programming Language :: Python" ]) ].

Definition script : Py unit :=
  long_description <- read ["README.md"] ;;
  setup env (setup_arguments long_description).

End Script.

(** The literal of line 7. *)
Definition entrypoint : string := "mathfinder".

(** Running [setup.py] in a fresh process. *)
Definition setup_py `{OsPath} (env : Env) : outcome unit * list kwargs :=
  script env entrypoint [].

(** [kw] are the keyword arguments of a call of [setup] made by the run. *)
Definition setup_called_with `{OsPath} (env : Env) (kw : kwargs) : Prop :=
  In kw (snd (setup_py env)).

(** ** Reading the arguments the way the packaging tools do *)

(** An entry point [name = module:attr]. *)
Record entry_point : Type := {
  ep_name : string;
  ep_module : string;
  ep_attr : option string
}.

(** A dotted name: the regex [[\w.]+]. *)
Definition dotted (s : string) : bool :=
  Str.nonempty s && Str.all (fun c => Str.is_word c || Ascii.eqb c "."%char) s.

(** The entry-point syntax: the name is what precedes the first [=], the
    object reference what follows it, made of a dotted module name and,
    after a colon, a dotted attribute; white space around each part is
    dropped.  Entries with extras are not in this fragment and are
    rejected. *)
Definition parse_entry_point (src : string) : option entry_point :=
  match Str.partition "="%char src with
  | None => None
  | Some (lhs, rhs) =>
      let name := Str.strip lhs in
      let ref := Str.strip rhs in
      let '(module, attr) :=
        match Str.partition ":"%char ref with
        | None => (ref, None)
        | Some (m, a) => (Str.strip m, Some (Str.strip a))
        end in
      if Str.nonempty name && dotted module
         && match attr with Some a => dotted a | None => true end
      then Some {| ep_name := name; ep_module := module; ep_attr := attr |}
      else None
  end.

(** The top-level package of a dotted module name. *)
Definition top_level (module : string) : string :=
  match Str.partition "."%char module with
  | Some (p, _) => p
  | None => module
  end.

Definition entry_point_groups (kw : kwargs) : option (list string) :=
  match kwarg kw "entry_points" with
  | Some (VDict d) => Some (map fst d)
  | _ => None
  end.

Definition console_scripts (kw : kwargs) : option (list string) :=
  match kwarg kw "entry_points" with
  | Some (VDict d) =>
      match dict_get d "console_scripts" with
      | Some v => as_str_list v
      | None => Some []
      end
  | Some _ => None
  | None => Some []
  end.

Fixpoint parse_all (l : list string) : option (list entry_point) :=
  match l with
  | [] => Some []
  | s :: r =>
      match parse_entry_point s, parse_all r with
      | Some e, Some es => Some (e :: es)
      | _, _ => None
      end
  end.

(** The console commands an installation creates: the names of the
    [console_scripts] entries. *)
Definition console_commands (kw : kwargs) : option (list string) :=
  match console_scripts kw with
  | Some l => option_map (map ep_name) (parse_all l)
  | None => None
  end.

(** The module and callable a console command is bound to. *)
Definition console_command_target (kw : kwargs) (command : string)
  : option (string * string) :=
  match console_scripts kw with
  | Some l =>
      match parse_all l with
      | Some es =>
          match find (fun e => ep_name e =? command) es with
          | Some e =>
              match ep_attr e with
              | Some a => Some (ep_module e, a)
              | None => None
              end
          | None => None
          end
      | None => None
      end
  | None => None
  end.

(** The [name] of the distribution. *)
Definition distribution_name (kw : kwargs) : option string :=
  match kwarg kw "name" with
  | Some (VStr s) => Some s
  | _ => None
  end.

(** The top-level packages of the targets of the console scripts. *)
Definition console_script_packages (kw : kwargs) : option (list string) :=
  match console_scripts kw with
  | Some l => option_map (map (fun e => top_level (ep_module e))) (parse_all l)
  | None => None
  end.

(** A plain name: a non-empty string of word characters. *)
Definition plain_name (s : string) : bool := Str.nonempty s && Str.all Str.is_word s.

(** The two pieces of the object reference that the script's f-string puts
    after the [=]: the module under a package, and the reference to its
    [main]. *)
Definition server_module (package : string) : string := package ++ ".server".

Definition server_ref (package : string) : string :=
  server_module package ++ String ":" "main".

(** A requirement string starts with the project name; whatever follows it
    (extras, version specifiers, a URL, a marker) constrains it. *)
Definition is_name_char (c : ascii) : bool :=
  Str.is_word c || Ascii.eqb c "."%char || Ascii.eqb c "-"%char.

Definition requirement (s : string) : string * string :=
  Str.span is_name_char (Str.strip s).

Definition install_requires (kw : kwargs) : option (list string) :=
  match kwarg kw "install_requires" with
  | Some v => as_str_list v
  | None => Some []
  end.

(** The data-file patterns declared for a package. *)
Definition package_data_patterns (kw : kwargs) (package : string) : option (list string) :=
  match kwarg kw "package_data" with
  | Some (VDict d) =>
      match dict_get d package with
      | Some v => as_str_list v
      | None => Some []
      end
  | Some _ => None
  | None => Some []
  end.

Definition package_data_packages (kw : kwargs) : option (list string) :=
  match kwarg kw "package_data" with
  | Some (VDict d) => Some (map fst d)
  | Some _ => None
  | None => Some []
  end.

(** ** A concrete run *)

(** The script started as [python setup.py] in [/home/dev/MathFinder/server],
    which holds a [README.md] and the package directory. *)
Definition sample_readme : string := "# MathFinder

HTTP interface.
".

Definition sample_fs (p : string) : option node :=
  if p =? "/home/dev/MathFinder/server/README.md"
  then Some (RegularFile sample_readme)
  else if p =? "/home/dev/MathFinder/server" then Some Directory
  else if p =? "/home/dev/MathFinder/server/setup.py" then Some (RegularFile "...")
  else None.

Definition sample_env : Env := {|
  __file__ := "setup.py";
  getcwd := "/home/dev/MathFinder/server";
  lookup := sample_fs;
  find_packages := ["mathfinder"];
  setup_raises := fun _ => None
|}.

(** The same directory without a [README.md]. *)
Definition bare_env : Env := {|
  __file__ := "/home/dev/MathFinder/server/setup.py";
  getcwd := "/tmp";
  lookup := fun p => if p =? "/home/dev/MathFinder/server" then Some Directory else None;
  find_packages := [];
  setup_raises := fun _ => None
|}.

Definition sample_kw : kwargs := setup_arguments sample_env entrypoint sample_readme.

(** The script found under a relative path, with a different package set. *)
Definition other_env : Env := {|
  __file__ := "server/setup.py";
  getcwd := "/home/dev/MathFinder";
  lookup := sample_fs;
  find_packages := ["mathfinder"; "mathfinder.handlers"];
  setup_raises := fun _ => None
|}.

(** A script in another checkout, seeing the same files. *)
Definition elsewhere_env : Env := {|
  __file__ := "/srv/checkout/setup.py";
  getcwd := "/tmp";
  lookup := sample_fs;
  find_packages := [];
  setup_raises := fun _ => None
|}.



Definition other_kw : kwargs := setup_arguments other_env entrypoint sample_readme.

(** * Properties *)

(** ** Facts about strings *)

Section StringFacts.

Variables f g : ascii -> bool.

Lemma all_app (u w : string) : Str.all f (u ++ w) = Str.all f u && Str.all f w.
Proof.
  induction u as [|c u IH]; simpl; [reflexivity|].
  now rewrite IH, andb_assoc.
Qed.

Lemma all_impl (s : string) :
  (forall c, f c = true -> g c = true) -> Str.all f s = true -> Str.all g s = true.
Proof.
  intros Hfg. induction s as [|c s IH]; simpl; [reflexivity|].
  intros [Hc Hs]%andb_prop. now rewrite (Hfg c Hc), IH.
Qed.

Lemma rstrip_by_all (w : string) : Str.all f w = true -> Str.rstrip_by f w = "".
Proof.
  induction w as [|c w IH]; simpl; [reflexivity|].
  intros [Hc Hw]%andb_prop. now rewrite (IH Hw), Hc.
Qed.

Lemma rstrip_by_app (u w : string) :
  Str.all (fun c => negb (f c)) u = true ->
  Str.rstrip_by f (u ++ w) = u ++ Str.rstrip_by f w.
Proof.
  induction u as [|c u IH]; simpl; [reflexivity|].
  intros [Hc Hu]%andb_prop. rewrite (IH Hu).
  apply negb_true_iff in Hc. rewrite Hc.
  now destruct (u ++ Str.rstrip_by f w).
Qed.

Lemma lstrip_by_head (c : ascii) (s : string) :
  f c = false -> Str.lstrip_by f (String c s) = String c s.
Proof. intros Hc. simpl. now rewrite Hc. Qed.

End StringFacts.

Lemma partition_app (sep : ascii) (u v : string) :
  Str.all (fun c => negb (Ascii.eqb c sep)) u = true ->
  Str.partition sep (u ++ String sep v) = Some (u, v).
Proof.
  induction u as [|c u IH]; simpl.
  - now rewrite Ascii.eqb_refl.
  - intros [Hc Hu]%andb_prop. apply negb_true_iff in Hc.
    now rewrite Hc, (IH Hu).
Qed.

Lemma append_snoc (u : string) (c : ascii) (v : string) :
  (u ++ String c "") ++ v = u ++ String c v.
Proof. induction u as [|a u IH]; simpl; [reflexivity | now rewrite IH]. Qed.

Lemma append_assoc (u v w : string) : (u ++ v) ++ w = u ++ (v ++ w).
Proof. induction u as [|a u IH]; simpl; [reflexivity | now rewrite IH]. Qed.

Lemma append_empty_r (u : string) : u ++ "" = u.
Proof. induction u as [|a u IH]; simpl; [reflexivity | now rewrite IH]. Qed.

(** A word character is neither white space nor one of the separators of
    the entry-point syntax. *)
Lemma word_not_space (c : ascii) : Str.is_word c = true -> Str.is_space c = false.
Proof.
  destruct c as [[] [] [] [] [] [] [] []]; vm_compute; congruence.
Qed.

Lemma word_differs (d c : ascii) :
  Str.is_word d = false -> Str.is_word c = true -> negb (Ascii.eqb c d) = true.
Proof.
  intros Hd Hc. destruct (Ascii.eqb_spec c d) as [->|]; [congruence | reflexivity].
Qed.

Lemma plain_name_inv (e : string) :
  plain_name e = true ->
  exists c r, e = String c r /\ Str.is_word c = true /\ Str.all Str.is_word e = true.
Proof.
  unfold plain_name. destruct e as [|c r]; [discriminate|].
  simpl. intros [Hc Hr]%andb_prop. exists c, r. now rewrite Hc, Hr.
Qed.

Lemma strip_no_space (s : string) :
  Str.all (fun c => negb (Str.is_space c)) s = true -> Str.strip s = s.
Proof.
  intros Hs. unfold Str.strip, Str.lstrip, Str.rstrip.
  replace (Str.lstrip_by Str.is_space s) with s.
  - rewrite <- (append_empty_r s) at 1. rewrite rstrip_by_app by exact Hs.
    apply append_empty_r.
  - destruct s as [|c r]; [reflexivity|]. simpl in *.
    apply andb_prop in Hs as [Hc _]. apply negb_true_iff in Hc. now rewrite Hc.
Qed.

(** ** The entry-point string built by the script *)

Section EntryPointString.

Variables e p : string.
Hypothesis He : plain_name e = true.
Hypothesis Hp : plain_name p = true.

Lemma entry_string_shape :
  fstring [Field e; Lit " = "; Field p; Lit ".server:main"]
  = (e ++ " ") ++ String "=" (String " " (server_ref p)).
Proof.
  unfold fstring, server_ref, server_module. simpl.
  now rewrite append_snoc, append_assoc.
Qed.

Lemma words_avoid (d : ascii) (s : string) :
  Str.is_word d = false -> Str.all Str.is_word s = true ->
  Str.all (fun c => negb (Ascii.eqb c d)) s = true.
Proof. intros Hd. apply all_impl. intros c. now apply word_differs. Qed.

Lemma words_no_space (s : string) :
  Str.all Str.is_word s = true -> Str.all (fun c => negb (Str.is_space c)) s = true.
Proof.
  apply all_impl. intros c Hc. now rewrite (word_not_space c Hc).
Qed.

Lemma strip_name : Str.strip (e ++ " ") = e.
Proof.
  destruct (plain_name_inv e He) as (c & r & -> & Hc & Hall).
  unfold Str.strip, Str.lstrip, Str.rstrip.
  change (String c r ++ " ") with (String c (r ++ " ")).
  rewrite lstrip_by_head by now apply word_not_space.
  change (String c (r ++ " ")) with (String c r ++ " ").
  rewrite rstrip_by_app by now apply words_no_space.
  apply append_empty_r.
Qed.

Lemma module_no_space :
  Str.all (fun c => negb (Str.is_space c)) (server_module p) = true.
Proof.
  destruct (plain_name_inv p Hp) as (_ & _ & _ & _ & Hall).
  unfold server_module. rewrite all_app, (words_no_space p Hall). reflexivity.
Qed.

Lemma strip_ref : Str.strip (String " " (server_ref p)) = server_ref p.
Proof.
  change (Str.strip (String " " (server_ref p))) with (Str.strip (server_ref p)).
  apply strip_no_space. unfold server_ref.
  rewrite all_app, module_no_space. reflexivity.
Qed.

Lemma partition_ref :
  Str.partition ":" (server_ref p) = Some (server_module p, "main").
Proof.
  destruct (plain_name_inv p Hp) as (_ & _ & _ & _ & Hall).
  unfold server_ref. apply partition_app. unfold server_module.
  rewrite all_app, (words_avoid ":" p eq_refl Hall). reflexivity.
Qed.

Lemma dotted_module : dotted (server_module p) = true.
Proof.
  destruct (plain_name_inv p Hp) as (c & r & -> & _ & Hall).
  unfold dotted, server_module. simpl Str.nonempty. rewrite all_app.
  rewrite (all_impl Str.is_word _ (String c r)); [reflexivity | | exact Hall].
  intros a Ha. now rewrite Ha.
Qed.

Lemma parse_entry_string :
  parse_entry_point (fstring [Field e; Lit " = "; Field p; Lit ".server:main"])
  = Some {| ep_name := e; ep_module := p ++ ".server"; ep_attr := Some "main" |}.
Proof.
  destruct (plain_name_inv e He) as (c & r & Ee & Hc & Hall).
  unfold parse_entry_point.
  rewrite entry_string_shape, partition_app.
  - rewrite strip_name, strip_ref, partition_ref.
    rewrite (strip_no_space (server_module p) module_no_space).
    change (Str.strip "main") with "main".
    rewrite dotted_module. change (dotted "main") with true.
    rewrite Ee. reflexivity.
  - rewrite all_app, (words_avoid "=" e eq_refl Hall). reflexivity.
Qed.

Lemma top_level_module : top_level (p ++ ".server") = p.
Proof.
  destruct (plain_name_inv p Hp) as (_ & _ & _ & _ & Hall).
  unfold top_level.
  change (p ++ ".server") with (p ++ String "." "server").
  now rewrite partition_app by now apply words_avoid.
Qed.

End EntryPointString.

(** ** Running the script *)

Section Run.

Context `{OsPath}.
Variable env : Env.

(** What the open and the read of a path end with. *)
Lemma read_run (parts : list string) (calls : list kwargs) :
  read env parts calls =
  (let path := path_join (here env) parts in
   match lookup env path with
   | Some (RegularFile text) => Returned text
   | Some Directory => Raised (IsADirectoryError path)
   | Some Undecodable => Raised UnicodeDecodeError
   | Some Unreadable => Raised (PermissionError path)
   | Some BelowNonDirectory => Raised (NotADirectoryError path)
   | Some InvalidName => Raised ValueError
   | Some (Unopenable errno) => Raised (OSError errno path)
   | None => Raised (FileNotFoundError path)
   end,
   calls).
Proof.
  unfold read, bind, codecs_open. cbv zeta.
  destruct (lookup env (path_join (here env) parts)) as [[text| | | | | |errno]|];
    reflexivity.
Qed.

Lemma read_run_file (parts : list string) (text : string) (calls : list kwargs) :
  lookup env (path_join (here env) parts) = Some (RegularFile text) ->
  read env parts calls = (Returned text, calls).
Proof. intros Hfile. rewrite read_run. cbv zeta. now rewrite Hfile. Qed.

(** The run, by what reading [README.md] ends with. *)
Lemma script_run (e : string) :
  script env e [] =
  match read env ["README.md"] [] with
  | (Returned text, _) =>
      (match setup_raises env (setup_arguments env e text) with
       | None => Returned tt
       | Some exc => Raised exc
       end,
       [setup_arguments env e text])
  | (Raised exc, _) => (Raised exc, [])
  end.
Proof.
  unfold script, bind. rewrite read_run. cbv zeta.
  destruct (lookup env (path_join (here env) ["README.md"])) as [[text| | | | | |errno]|];
    reflexivity.
Qed.

Lemma script_run_file (e text : string) :
  lookup env (path_join (here env) ["README.md"]) = Some (RegularFile text) ->
  snd (script env e []) = [setup_arguments env e text].
Proof.
  intros Hfile. rewrite script_run, (read_run_file _ text _ Hfile). reflexivity.
Qed.

(** Every call of [setup] has the arguments of [setup_arguments], with the
    text of [README.md] as [long_description]. *)
Lemma script_calls (e : string) (kw : kwargs) :
  In kw (snd (script env e [])) ->
  exists text,
    lookup env (path_join (here env) ["README.md"]) = Some (RegularFile text)
    /\ kw = setup_arguments env e text.
Proof.
  rewrite script_run, read_run. cbv zeta.
  destruct (lookup env (path_join (here env) ["README.md"])) as [[text| | | | | |errno]|];
    simpl; try contradiction.
  intros [<-|[]]. now exists text.
Qed.

End Run.

Ltac called_inv Hcall :=
  let text := fresh "text" in
  let Hfile := fresh "Hfile" in
  apply script_calls in Hcall as (text & Hfile & ->).

(** ** What the arguments say *)

Section Arguments.

Variable env : Env.
Variables e text : string.

Lemma console_scripts_arguments :
  console_scripts (setup_arguments env e text)
  = Some [fstring [Field e; Lit " = "; Field e; Lit ".server:main"]].
Proof. reflexivity. Qed.

Lemma entry_point_groups_arguments :
  entry_point_groups (setup_arguments env e text) = Some ["console_scripts"].
Proof. reflexivity. Qed.

Lemma install_requires_arguments :
  install_requires (setup_arguments env e text)
  = Some ["tornado"; "connexion"; "swagger-ui-bundle"].
Proof. reflexivity. Qed.

Lemma distribution_name_arguments :
  distribution_name (setup_arguments env e text) = Some e.
Proof. reflexivity. Qed.

Lemma package_data_arguments :
  kwarg (setup_arguments env e text) "package_data"
  = Some (VDict [(e, VList [VStr "openapi/*.yaml"])]).
Proof. reflexivity. Qed.

Lemma keywords_arguments :
  keywords (setup_arguments env e text)
  = ["name"; "install_requires"; "entry_points"; "package_data"; "packages"; "url";
     "license"; "description"; "long_description"; "zip_safe"; "classifiers"].
Proof. reflexivity. Qed.

Lemma long_description_arguments :
  kwarg (setup_arguments env e text) "long_description" = Some (VStr text).
Proof. reflexivity. Qed.

Hypothesis He : plain_name e = true.

Lemma console_commands_arguments :
  console_commands (setup_arguments env e text) = Some [e].
Proof.
  unfold console_commands. rewrite console_scripts_arguments.
  unfold parse_all. now rewrite parse_entry_string.
Qed.

Lemma console_script_packages_arguments :
  console_script_packages (setup_arguments env e text) = Some [e].
Proof.
  unfold console_script_packages. rewrite console_scripts_arguments.
  unfold parse_all. rewrite parse_entry_string by assumption.
  simpl. now rewrite top_level_module.
Qed.

Lemma console_command_target_arguments :
  console_command_target (setup_arguments env e text) e = Some (e ++ ".server", "main").
Proof.
  unfold console_command_target. rewrite console_scripts_arguments.
  unfold parse_all. rewrite parse_entry_string by assumption.
  simpl. now rewrite String.eqb_refl.
Qed.

End Arguments.

Lemma plain_entrypoint : plain_name entrypoint = true.
Proof. reflexivity. Qed.

Lemma sample_called : setup_called_with sample_env sample_kw.
Proof. left. reflexivity. Qed.

Lemma sample_readme_found :
  lookup sample_env (path_join (here sample_env) ["README.md"])
  = Some (RegularFile sample_readme).
Proof. reflexivity. Qed.

Lemma bare_readme_missing :
  lookup bare_env (path_join (here bare_env) ["README.md"]) = None.
Proof. reflexivity. Qed.

(** On POSIX, one relative part is appended to a directory name after a
    separator: [README.md] is looked up directly under [here]. *)
Lemma posix_join_one (dir part : string) :
  Str.nonempty dir = true -> Str.endswith posixpath.sep dir = false ->
  posixpath.isabs part = false ->
  posixpath.join dir [part] = dir ++ "/" ++ part.
Proof.
  intros Hd He Hp. unfold posixpath.join, posixpath.join_step. simpl.
  now rewrite Hp, Hd, He.
Qed.

(** With no parts at all, [read] tries to open the directory itself. *)
Example read_no_parts :
  read sample_env [] []
  = (Raised (IsADirectoryError "/home/dev/MathFinder/server"), []).
Proof. reflexivity. Qed.

(** ** The claims *)

(** C1: in every call of [setup] the run makes, the [console_scripts] entry
    is the string [mathfinder = mathfinder.server:main], and read as an
    entry point it binds the command [mathfinder] to the callable [main] of
    the module [mathfinder.server]. *)
Theorem console_command_invokes_server_main `{OsPath} (env : Env) (kw : kwargs) :
  setup_called_with env kw ->
  console_scripts kw = Some ["mathfinder = mathfinder.server:main"]
  /\ console_command_target kw "mathfinder" = Some ("mathfinder.server", "main").
Proof.
  intros Hcall. called_inv Hcall. split.
  - reflexivity.
  - exact (console_command_target_arguments env entrypoint text plain_entrypoint).
Qed.

Lemma console_command_invokes_server_main_witness :
  setup_called_with sample_env sample_kw
  /\ console_scripts sample_kw = Some ["mathfinder = mathfinder.server:main"]
  /\ console_command_target sample_kw "mathfinder" = Some ("mathfinder.server", "main").
Proof.
  split; [exact sample_called|].
  exact (console_command_invokes_server_main sample_env sample_kw sample_called).
Defined.

(** C2: every call of [setup] declares exactly one console script, whose
    command name is [mathfinder]; [console_scripts] is the only entry-point
    group, so the installation creates that one command and no other. *)
Theorem exactly_one_console_command `{OsPath} (env : Env) (kw : kwargs) :
  setup_called_with env kw ->
  (exists entry,
      console_scripts kw = Some [entry]
      /\ option_map ep_name (parse_entry_point entry) = Some "mathfinder")
  /\ console_commands kw = Some ["mathfinder"]
  /\ entry_point_groups kw = Some ["console_scripts"].
Proof.
  intros Hcall. called_inv Hcall. split; [|split].
  - eexists. split; [apply console_scripts_arguments|].
    now rewrite (parse_entry_string _ _ plain_entrypoint plain_entrypoint).
  - exact (console_commands_arguments env entrypoint text plain_entrypoint).
  - apply entry_point_groups_arguments.
Qed.

Lemma exactly_one_console_command_witness :
  setup_called_with sample_env sample_kw
  /\ console_commands sample_kw = Some ["mathfinder"]
  /\ entry_point_groups sample_kw = Some ["console_scripts"].
Proof.
  split; [exact sample_called|].
  exact (proj2 (exactly_one_console_command sample_env sample_kw sample_called)).
Defined.

(** C3: [install_requires] is the list [tornado], [connexion],
    [swagger-ui-bundle], in that order, and each of the three requirement
    strings is a bare project name with nothing after it: no version
    specifier, extra, URL or marker. *)
Theorem install_requires_three_bare_names `{OsPath} (env : Env) (kw : kwargs) :
  setup_called_with env kw ->
  install_requires kw = Some ["tornado"; "connexion"; "swagger-ui-bundle"]
  /\ option_map (map requirement) (install_requires kw)
     = Some [("tornado", ""); ("connexion", ""); ("swagger-ui-bundle", "")].
Proof.
  intros Hcall. called_inv Hcall. split; reflexivity.
Qed.

Lemma install_requires_three_bare_names_witness :
  setup_called_with sample_env sample_kw
  /\ install_requires sample_kw = Some ["tornado"; "connexion"; "swagger-ui-bundle"].
Proof.
  split; [exact sample_called|].
  exact (proj1 (install_requires_three_bare_names sample_env sample_kw sample_called)).
Defined.

(** C4: [package_data] has the single key [mathfinder]; the patterns it
    declares for that package are exactly [openapi/*.yaml], and for every
    other package it declares none. *)
Theorem package_data_only_mathfinder_openapi `{OsPath} (env : Env) (kw : kwargs) :
  setup_called_with env kw ->
  package_data_packages kw = Some ["mathfinder"]
  /\ forall package,
      package_data_patterns kw package
      = Some (if package =? "mathfinder" then ["openapi/*.yaml"] else []).
Proof.
  intros Hcall. called_inv Hcall. split; [reflexivity|].
  intros package. unfold package_data_patterns.
  rewrite package_data_arguments. unfold entrypoint, dict_get.
  rewrite (String.eqb_sym package).
  now destruct ("mathfinder" =? package).
Qed.

Lemma package_data_only_mathfinder_openapi_witness :
  setup_called_with sample_env sample_kw
  /\ package_data_patterns sample_kw "mathfinder" = Some ["openapi/*.yaml"]
  /\ package_data_patterns sample_kw "tests" = Some [].
Proof.
  split; [exact sample_called|].
  pose proof (package_data_only_mathfinder_openapi sample_env sample_kw sample_called)
    as [_ Hpat].
  split; [exact (Hpat "mathfinder") | exact (Hpat "tests")].
Defined.

(** C5: the keyword arguments of every call of [setup] are the eleven
    written in the script; [version] is not among them, while [name],
    [install_requires], [entry_points] and [classifiers] are. *)
Theorem setup_call_is_version_less `{OsPath} (env : Env) (kw : kwargs) :
  setup_called_with env kw ->
  kwarg kw "version" = None
  /\ ~ In "version" (keywords kw)
  /\ keywords kw
     = ["name"; "install_requires"; "entry_points"; "package_data"; "packages"; "url";
        "license"; "description"; "long_description"; "zip_safe"; "classifiers"]
  /\ exists name requires groups classifiers,
      kwarg kw "name" = Some (VStr name)
      /\ kwarg kw "install_requires" = Some (VList requires)
      /\ kwarg kw "entry_points" = Some (VDict groups)
      /\ kwarg kw "classifiers" = Some (str_list classifiers).
Proof.
  intros Hcall. called_inv Hcall. split; [reflexivity|]. split; [|split].
  - rewrite keywords_arguments. simpl. intuition discriminate.
  - apply keywords_arguments.
  - do 4 eexists. split; [|split; [|split]]; reflexivity.
Qed.

Lemma setup_call_is_version_less_witness :
  setup_called_with sample_env sample_kw /\ kwarg sample_kw "version" = None.
Proof.
  split; [exact sample_called|].
  exact (proj1 (setup_call_is_version_less sample_env sample_kw sample_called)).
Defined.

(** C6: in every call of [setup] the distribution name, the name of the
    console command and the top-level package of the entry-point target are
    all [mathfinder]; and they coincide because each is the value of
    [entrypoint]: had line 7 bound any other plain name, all three would be
    that name. *)
Theorem names_all_derive_from_entrypoint `{OsPath} (env : Env) :
  (forall kw,
      setup_called_with env kw ->
      distribution_name kw = Some "mathfinder"
      /\ console_commands kw = Some ["mathfinder"]
      /\ console_script_packages kw = Some ["mathfinder"])
  /\ (forall e kw,
      plain_name e = true ->
      In kw (snd (script env e [])) ->
      distribution_name kw = Some e
      /\ console_commands kw = Some [e]
      /\ console_script_packages kw = Some [e]).
Proof.
  assert (Hgen : forall e kw,
             plain_name e = true ->
             In kw (snd (script env e [])) ->
             distribution_name kw = Some e
             /\ console_commands kw = Some [e]
             /\ console_script_packages kw = Some [e]).
  { intros e kw He Hcall. called_inv Hcall. split; [|split].
    - apply distribution_name_arguments.
    - now apply console_commands_arguments.
    - now apply console_script_packages_arguments. }
  split; [|exact Hgen].
  intros kw Hcall. exact (Hgen entrypoint kw plain_entrypoint Hcall).
Qed.

Lemma names_all_derive_from_entrypoint_witness :
  (setup_called_with sample_env sample_kw
   /\ distribution_name sample_kw = Some "mathfinder"
   /\ console_commands sample_kw = Some ["mathfinder"]
   /\ console_script_packages sample_kw = Some ["mathfinder"])
  /\ (plain_name "finder" = true
      /\ In (setup_arguments sample_env "finder" sample_readme)
            (snd (script sample_env "finder" []))
      /\ console_script_packages (setup_arguments sample_env "finder" sample_readme)
         = Some ["finder"]).
Proof.
  pose proof (names_all_derive_from_entrypoint sample_env) as [Hact Hgen].
  assert (Hin : In (setup_arguments sample_env "finder" sample_readme)
                   (snd (script sample_env "finder" []))) by (left; reflexivity).
  split.
  - split; [exact sample_called | exact (Hact sample_kw sample_called)].
  - split; [reflexivity|]. split; [exact Hin|].
    exact (proj2 (proj2 (Hgen "finder" _ eq_refl Hin))).
Defined.

(** C8: when no [README.md] exists in [here], the run ends with the
    [FileNotFoundError] raised by the open in [read], and [setup] has not
    been called. *)
Theorem missing_readme_raises_before_setup `{OsPath} (env : Env) :
  lookup env (path_join (here env) ["README.md"]) = None ->
  setup_py env = (Raised (FileNotFoundError (path_join (here env) ["README.md"])), [])
  /\ forall kw, ~ setup_called_with env kw.
Proof.
  intros Hmiss.
  assert (Hrun : setup_py env
                 = (Raised (FileNotFoundError (path_join (here env) ["README.md"])), [])).
  { unfold setup_py. rewrite script_run, read_run. cbv zeta. now rewrite Hmiss. }
  split; [exact Hrun|].
  intros kw. unfold setup_called_with. rewrite Hrun. simpl. tauto.
Qed.

Lemma missing_readme_raises_before_setup_witness :
  lookup bare_env (path_join (here bare_env) ["README.md"]) = None
  /\ setup_py bare_env
     = (Raised (FileNotFoundError "/home/dev/MathFinder/server/README.md"), []).
Proof.
  split; [exact bare_readme_missing|].
  exact (proj1 (missing_readme_raises_before_setup bare_env bare_readme_missing)).
Defined.

(** ** Further properties of the script *)

Lemma other_called : setup_called_with other_env other_kw.
Proof. left. reflexivity. Qed.

(** Apart from [packages] and [long_description], an argument of [setup]
    depends neither on the environment nor on the text read. *)
Lemma kwarg_arguments_fixed (env1 env2 : Env) (e text1 text2 k : string) :
  k <> "packages" -> k <> "long_description" ->
  kwarg (setup_arguments env1 e text1) k = kwarg (setup_arguments env2 e text2) k.
Proof.
  intros Hp Hl. unfold kwarg, setup_arguments. cbn [dict_get].
  repeat match goal with
         | |- context [String.eqb ?a k] =>
             destruct (String.eqb_spec a k) as [<-|]; [reflexivity || congruence|]
         end.
  reflexivity.
Qed.



(** X3: two runs, in any two environments and under any two
    implementations of [os.path], call [setup] with the same keywords in the
    same order, and with the same value for every keyword other than
    [packages] and [long_description]. *)
Theorem metadata_independent_of_environment (P1 P2 : OsPath) (env1 env2 : Env)
    (kw1 kw2 : kwargs) :
  @setup_called_with P1 env1 kw1 ->
  @setup_called_with P2 env2 kw2 ->
  keywords kw1 = keywords kw2
  /\ forall k, k <> "packages" -> k <> "long_description" -> kwarg kw1 k = kwarg kw2 k.
Proof.
  intros Hc1 Hc2. called_inv Hc1. called_inv Hc2. split.
  - now rewrite !keywords_arguments.
  - intros k. apply kwarg_arguments_fixed.
Qed.

Lemma metadata_independent_of_environment_witness :
  kwarg sample_kw "entry_points" = kwarg other_kw "entry_points"
  /\ kwarg sample_kw "classifiers" = kwarg other_kw "classifiers".
Proof.
  pose proof (metadata_independent_of_environment _ _ sample_env other_env
                sample_kw other_kw sample_called other_called) as [_ Hsame].
  split; apply Hsame; discriminate.
Defined.

(** ** The script on POSIX *)

Section Posix.

Import posixpath.

Lemma isabs_append (u v : string) : isabs u = true -> isabs (u ++ v) = true.
Proof. destruct u as [|c u]; [discriminate | exact (fun H => H)]. Qed.

Lemma join_step_isabs (cwd part : string) :
  isabs cwd = true -> isabs (join_step cwd part) = true.
Proof.
  intros Hc. unfold join_step.
  destruct (isabs part) eqn:Hp; [exact Hp|].
  destruct (negb (Str.nonempty cwd) || Str.endswith sep cwd); now apply isabs_append.
Qed.

Lemma normpath_isabs (path : string) : isabs path = true -> isabs (normpath path) = true.
Proof.
  intros Ha. unfold normpath. rewrite Ha.
  destruct path as [|c r]; [discriminate|].
  change (String c r =? "") with false. cbv iota.
  destruct (prefix "//" (String c r) && negb (prefix "///" (String c r))); reflexivity.
Qed.

Lemma abspath_isabs (cwd path : string) :
  isabs cwd = true -> isabs (abspath cwd path) = true.
Proof.
  intros Hc. unfold abspath. apply normpath_isabs.
  destruct (isabs path) eqn:Hp; [exact Hp|].
  now apply join_step_isabs.
Qed.

Lemma join_absolute_part (a : string) (parts : list string) (b : string)
    (rest : list string) :
  isabs b = true -> join a (parts ++ b :: rest) = join b rest.
Proof.
  intros Hb. unfold join. rewrite fold_left_app. simpl.
  unfold join_step at 2. now rewrite Hb.
Qed.

(** *** [dirname] *)

Lemma head_of_sep_free (s : string) : Str.all not_sep s = true -> head_of s = "".
Proof.
  induction s as [|c s IH]; simpl; [reflexivity|].
  intros [Hc Hs]%andb_prop. rewrite (IH Hs).
  apply negb_true_iff in Hc. now rewrite Hc.
Qed.

Lemma head_of_app_sep (u name : string) :
  Str.all not_sep name = true -> head_of (u ++ String sep name) = u ++ String sep "".
Proof.
  intros Hn. induction u as [|c u IH]; simpl.
  - now rewrite (head_of_sep_free name Hn).
  - rewrite IH. now destruct u.
Qed.

Lemma rstrip_by_app_all (f : ascii -> bool) (u w : string) :
  Str.all f w = true -> Str.rstrip_by f (u ++ w) = Str.rstrip_by f u.
Proof.
  intros Hw. induction u as [|c u IH]; simpl.
  - now apply rstrip_by_all.
  - now rewrite IH.
Qed.

Lemma rstrip_by_unchanged (u : string) :
  Str.endswith sep u = false -> Str.rstrip_by is_sep u = u.
Proof.
  induction u as [|c u IH]; [reflexivity|].
  destruct u as [|c' u'].
  - simpl. unfold is_sep. now intros ->.
  - intros He. change (Str.endswith sep (String c (String c' u')))
      with (Str.endswith sep (String c' u')) in He.
    change (Str.rstrip_by is_sep (String c (String c' u')))
      with (match Str.rstrip_by is_sep (String c' u') with
            | EmptyString => if is_sep c then EmptyString else String c EmptyString
            | r' => String c r'
            end).
    now rewrite (IH He).
Qed.

Lemma not_all_sep (u : string) :
  Str.nonempty u = true -> Str.endswith sep u = false -> Str.all is_sep u = false.
Proof.
  induction u as [|c u IH]; [discriminate|]. intros _.
  destruct u as [|c' u'].
  - simpl. unfold is_sep. now intros ->.
  - intros He. change (Str.all is_sep (String c (String c' u')))
      with (is_sep c && Str.all is_sep (String c' u')).
    rewrite (IH eq_refl He). apply andb_false_r.
Qed.

(** The directory of a name joined to a directory is that directory. *)
Lemma dirname_join (d name : string) :
  Str.endswith sep d = false -> Str.all not_sep name = true ->
  dirname (join d [name]) = d.
Proof.
  intros Hd Hn.
  assert (Hrel : isabs name = false).
  { destruct name as [|c r]; [reflexivity|]. simpl in Hn.
    apply andb_prop in Hn as [Hc _]. now apply negb_true_iff in Hc. }
  unfold join. simpl. unfold join_step. rewrite Hrel, Hd.
  destruct d as [|c r].
  - simpl. unfold dirname. now rewrite (head_of_sep_free name Hn).
  - change (negb (Str.nonempty (String c r)) || false) with false. cbv iota.
    unfold dirname. rewrite (head_of_app_sep (String c r) name Hn).
    assert (Hne : Str.nonempty (String c r ++ String sep "") = true) by reflexivity.
    rewrite Hne, all_app, (not_all_sep (String c r) eq_refl Hd).
    cbn [andb negb].
    rewrite (rstrip_by_app_all is_sep (String c r) (String sep "") eq_refl).
    now apply rstrip_by_unchanged.
Qed.

(** *** [normpath] *)

Lemma split_not_nil (c : ascii) (s : string) : Str.split c s <> [].
Proof.
  induction s as [|a s IH]; simpl; [discriminate|].
  destruct (Ascii.eqb a c); [discriminate|].
  destruct (Str.split c s); discriminate.
Qed.

Lemma split_sep_free (s : string) :
  Forall (fun comp => Str.all not_sep comp = true) (Str.split sep s).
Proof.
  induction s as [|a s IH]; simpl.
  - repeat constructor.
  - destruct (Ascii.eqb a sep) eqn:Ha.
    + constructor; [reflexivity | exact IH].
    + destruct (Str.split sep s) as [|h t].
      * repeat constructor. simpl. unfold not_sep, is_sep. now rewrite Ha.
      * inversion IH as [|? ? Hh Ht]; subst. constructor; [|exact Ht].
        simpl. unfold not_sep at 1, is_sep. now rewrite Ha, Hh.
Qed.

Lemma split_app_sep (u v : string) :
  Str.split sep (u ++ String sep v) = (Str.split sep u ++ Str.split sep v)%list.
Proof.
  induction u as [|a u IH]; simpl.
  - reflexivity.
  - rewrite IH. destruct (Ascii.eqb a sep); [reflexivity|].
    pose proof (split_not_nil sep u) as Hne.
    destruct (Str.split sep u) as [|h t]; [contradiction | reflexivity].
Qed.

Lemma Forall_removelast {A} (P : A -> Prop) (l : list A) :
  Forall P l -> Forall P (removelast l).
Proof.
  induction 1 as [|x l Hx Hl IH]; simpl; [constructor|].
  destruct l; [constructor | now constructor].
Qed.

Lemma norm_step_components (n : nat) (comps : list string) (comp : string) :
  Forall component comps -> Str.all not_sep comp = true ->
  Forall component (norm_step n comps comp).
Proof.
  intros Hcs Hc. unfold norm_step.
  destruct (comp =? "") eqn:He; [exact Hcs|].
  destruct (comp =? "."); [exact Hcs|]. cbn [orb].
  match goal with |- Forall _ (if ?b then _ else _) => destruct b end.
  - apply Forall_app. split; [exact Hcs|]. constructor; [|constructor].
    split; [|exact Hc]. destruct comp; [discriminate | reflexivity].
  - now apply Forall_removelast.
Qed.

Lemma fold_norm_components (n : nat) (l comps : list string) :
  Forall (fun comp => Str.all not_sep comp = true) l ->
  Forall component comps ->
  Forall component (fold_left (norm_step n) l comps).
Proof.
  intros Hl. revert comps.
  induction Hl as [|x l Hx Hl IH]; intros comps Hcs; simpl; [exact Hcs|].
  apply IH. now apply norm_step_components.
Qed.

Lemma endswith_app (c : ascii) (u v : string) :
  Str.nonempty v = true -> Str.endswith c (u ++ v) = Str.endswith c v.
Proof.
  destruct v as [|b v]; [discriminate|]. intros _.
  induction u as [|a u IH]; [reflexivity|].
  rewrite <- IH. destruct u; reflexivity.
Qed.

Lemma component_endswith (s : string) : component s -> Str.endswith sep s = false.
Proof.
  intros [Hne Hall]. induction s as [|a s IH]; [discriminate|].
  simpl in Hall. apply andb_prop in Hall as [Ha Hs].
  destruct s as [|b s].
  - simpl. now apply negb_true_iff in Ha.
  - exact (IH eq_refl Hs).
Qed.

Lemma concat_components (comps : list string) :
  comps <> [] -> Forall component comps ->
  Str.nonempty (String.concat "/" comps) = true
  /\ Str.endswith sep (String.concat "/" comps) = false.
Proof.
  intros Hne Hcs. induction Hcs as [|x l Hx Hl IH]; [contradiction|].
  destruct l as [|y l].
  - simpl. split; [apply Hx | now apply component_endswith].
  - destruct IH as [IHn IHe]; [discriminate|].
    change (String.concat "/" (x :: y :: l))
      with (x ++ String sep (String.concat "/" (y :: l))).
    split.
    + destruct Hx as [Hxn _]. now destruct x.
    + rewrite endswith_app by reflexivity.
      destruct (String.concat "/" (y :: l)) as [|a s]; [discriminate IHn | exact IHe].
Qed.

(** The shape of the normal form of an absolute path: one or two
    separators, then components joined by single separators. *)
Lemma normpath_shape (path : string) :
  isabs path = true ->
  exists n comps,
    (n = 1 \/ n = 2) /\ Forall component comps
    /\ normpath path = slashes n ++ String.concat "/" comps.
Proof.
  intros Ha. unfold normpath. rewrite Ha.
  destruct path as [|c r]; [discriminate|].
  change (String c r =? "") with false. cbv iota.
  set (n := if prefix "//" (String c r) && negb (prefix "///" (String c r))
            then 2 else 1).
  exists n, (fold_left (norm_step n) (Str.split sep (String c r)) []).
  assert (Hn : n = 1 \/ n = 2).
  { subst n. destruct (prefix "//" (String c r) && negb (prefix "///" (String c r)));
      [now right | now left]. }
  split; [exact Hn|]. split.
  - apply fold_norm_components; [apply split_sep_free | constructor].
  - unfold slashes. destruct Hn as [-> | ->]; reflexivity.
Qed.

Lemma prefix_nil (s : string) : prefix "" s = true.
Proof. now destruct s. Qed.

Lemma prefix_cons (a b : ascii) (q s : string) :
  prefix (String a q) (String b s) = if Ascii.eqb a b then prefix q s else false.
Proof.
  change (prefix (String a q) (String b s))
    with (match ascii_dec a b with left _ => prefix q s | right _ => false end).
  destruct (ascii_dec a b) as [->|Hab].
  - now rewrite Ascii.eqb_refl.
  - apply Ascii.eqb_neq in Hab. now rewrite Hab.
Qed.

(** Whether a path starts with a run of separators is not changed by one
    more separator after its last, non-separator, character. *)
Lemma prefix_trailing_sep (q p : string) :
  Str.all is_sep q = true -> Str.nonempty p = true -> Str.endswith sep p = false ->
  prefix q (p ++ String sep "") = prefix q p.
Proof.
  revert p. induction q as [|a q IH]; intros p Hq Hne He.
  - now rewrite !prefix_nil.
  - destruct p as [|b r]; [discriminate|].
    simpl in Hq. apply andb_prop in Hq as [Ha Hq].
    apply Ascii.eqb_eq in Ha. subst a.
    change (String b r ++ String sep "") with (String b (r ++ String sep "")).
    rewrite !prefix_cons. destruct r as [|c r].
    + simpl in He. rewrite Ascii.eqb_sym, He. reflexivity.
    + now rewrite (IH (String c r) Hq eq_refl He).
Qed.

(** A separator after a path does not change its normal form. *)
Lemma normpath_trailing_sep (p : string) :
  Str.nonempty p = true -> Str.endswith sep p = false ->
  normpath (p ++ String sep "") = normpath p.
Proof.
  intros Hne He. unfold normpath.
  rewrite (prefix_trailing_sep "//" p eq_refl Hne He).
  rewrite (prefix_trailing_sep "///" p eq_refl Hne He).
  rewrite split_app_sep, fold_left_app.
  destruct p as [|c r]; [discriminate|]. reflexivity.
Qed.

(** What [here] is made of when the current directory is absolute. *)
Lemma here_shape (env : Env) :
  isabs (getcwd env) = true ->
  exists n comps,
    (n = 1 \/ n = 2) /\ Forall component comps
    /\ @here os_path env = slashes n ++ String.concat "/" comps.
Proof.
  intros Hc. unfold here. cbn [path_abspath path_dirname os_path]. unfold abspath.
  apply normpath_shape.
  destruct (isabs (dirname (__file__ env))) eqn:Hd; [exact Hd|].
  now apply join_step_isabs.
Qed.

Lemma slashes_facts (n : nat) (body : string) :
  n = 1 \/ n = 2 ->
  isabs (slashes n ++ body) = true
  /\ Str.nonempty (slashes n ++ body) = true
  /\ Str.all is_sep (slashes n ++ body) = Str.all is_sep body
  /\ (Str.nonempty body = true ->
      Str.endswith sep (slashes n ++ body) = Str.endswith sep body).
Proof.
  intros [-> | ->]; (split; [reflexivity|]); (split; [reflexivity|]);
    (split; [reflexivity|]); intros Hb; now destruct body.
Qed.

(** X6: on POSIX, when the current directory is absolute, [here] is an
    absolute path, and it ends with a separator only when it consists of
    separators alone. *)
Theorem here_is_absolute_without_trailing_separator (env : Env) :
  isabs (getcwd env) = true ->
  isabs (@here os_path env) = true
  /\ Str.endswith sep (@here os_path env) = Str.all is_sep (@here os_path env).
Proof.
  intros Hc. destruct (here_shape env Hc) as (n & comps & Hn & Hcs & ->).
  destruct (slashes_facts n (String.concat "/" comps) Hn) as (Ha & _ & Hall & Hend).
  split; [exact Ha|]. rewrite Hall.
  destruct comps as [|x l].
  - destruct Hn as [-> | ->]; reflexivity.
  - destruct (concat_components (x :: l)) as [Hne He]; [discriminate | exact Hcs |].
    rewrite (Hend Hne), He. symmetry. now apply not_all_sep.
Qed.

Lemma here_is_absolute_without_trailing_separator_witness :
  isabs (@here os_path other_env) = true
  /\ Str.endswith sep (@here os_path other_env) = Str.all is_sep (@here os_path other_env).
Proof.
  exact (here_is_absolute_without_trailing_separator other_env eq_refl).
Defined.

(** X7: on POSIX, a part that starts with a separator makes [read] forget
    [here] and every part before it: the file opened is the one named by
    that part joined with the parts after it. *)
Theorem read_absolute_part_ignores_here (env : Env) (parts : list string)
    (b : string) (rest : list string) (calls : list kwargs) :
  isabs b = true ->
  join (@here os_path env) (parts ++ b :: rest) = join b rest
  /\ forall text,
      lookup env (join b rest) = Some (RegularFile text) ->
      @read os_path env (parts ++ b :: rest) calls = (Returned text, calls).
Proof.
  intros Hb.
  pose proof (join_absolute_part (@here os_path env) parts b rest Hb) as Hj.
  split; [exact Hj|].
  intros text Hfile. apply read_run_file.
  cbn [path_join os_path]. now rewrite Hj.
Qed.

Lemma read_absolute_part_ignores_here_witness :
  @read os_path elsewhere_env ["docs"; "/home/dev/MathFinder"; "server/README.md"] []
  = (Returned sample_readme, []).
Proof.
  pose proof (read_absolute_part_ignores_here elsewhere_env ["docs"]
                "/home/dev/MathFinder" ["server/README.md"] [] eq_refl) as [_ Hread].
  exact (Hread sample_readme eq_refl).
Defined.

Lemma isabs_nonempty (p : string) : isabs p = true -> Str.nonempty p = true.
Proof. now destruct p. Qed.

Lemma dirname_sep_free (name : string) : Str.all not_sep name = true -> dirname name = "".
Proof. intros Hn. unfold dirname. now rewrite (head_of_sep_free name Hn). Qed.

(** X8: on POSIX, when the script was started under the path of a
    directory joined with a file name, [here] is the absolute form of that
    directory; when the directory is itself absolute, the current directory
    plays no part. *)
Theorem here_is_directory_of_script (env : Env) (d name : string) :
  Str.endswith sep d = false ->
  Str.all not_sep name = true ->
  __file__ env = join d [name] ->
  @here os_path env = abspath (getcwd env) d
  /\ (isabs d = true -> @here os_path env = normpath d).
Proof.
  intros Hd Hn Hfile.
  assert (Hhere : @here os_path env = abspath (getcwd env) d).
  { unfold here. cbn [path_abspath path_dirname os_path].
    now rewrite Hfile, (dirname_join d name Hd Hn). }
  split; [exact Hhere|].
  intros Ha. rewrite Hhere. unfold abspath. now rewrite Ha.
Qed.

Lemma here_is_directory_of_script_witness :
  @here os_path other_env = abspath "/home/dev/MathFinder" "server"
  /\ @here os_path elsewhere_env = normpath "/srv/checkout".
Proof.
  pose proof (here_is_directory_of_script other_env "server" "setup.py"
                eq_refl eq_refl eq_refl) as [Hrel _].
  pose proof (here_is_directory_of_script elsewhere_env "/srv/checkout" "setup.py"
                eq_refl eq_refl eq_refl) as [_ Habs].
  split; [exact Hrel | exact (Habs eq_refl)].
Defined.

(** X9: on POSIX, when the current directory is absolute, a relative part
    given to [read] is looked up directly under [here]: the path opened is
    [here], one separator, and the part; only when [here] consists of
    separators alone is no separator added. *)
Theorem read_opens_directly_under_here (env : Env) (part : string)
    (calls : list kwargs) :
  isabs (getcwd env) = true ->
  isabs part = false ->
  join (@here os_path env) [part]
  = (if Str.all is_sep (@here os_path env)
     then @here os_path env ++ part
     else @here os_path env ++ String sep part)
  /\ forall text,
      Str.all is_sep (@here os_path env) = false ->
      lookup env (@here os_path env ++ String sep part) = Some (RegularFile text) ->
      @read os_path env [part] calls = (Returned text, calls).
Proof.
  intros Hc Hrel.
  assert (Hjoin : join (@here os_path env) [part]
                  = if Str.all is_sep (@here os_path env)
                    then @here os_path env ++ part
                    else @here os_path env ++ String sep part).
  { destruct (here_shape env Hc) as (n & comps & Hn & Hcs & Hshape).
    destruct (slashes_facts n (String.concat "/" comps) Hn) as (_ & Hne & Hall & Hend).
    rewrite <- Hshape in Hne, Hall, Hend.
    unfold join. cbn [fold_left]. unfold join_step. rewrite Hrel, Hne. cbn [negb orb].
    destruct comps as [|x l].
    - rewrite Hshape. destruct Hn as [-> | ->]; reflexivity.
    - destruct (concat_components (x :: l)) as [Hbn Hbe]; [discriminate | exact Hcs |].
      rewrite (Hend Hbn), Hbe, Hall, (not_all_sep _ Hbn Hbe). reflexivity. }
  split; [exact Hjoin|].
  intros text Hroot Hfile. apply read_run_file. cbn [path_join os_path].
  now rewrite Hjoin, Hroot.
Qed.

Lemma read_opens_directly_under_here_witness :
  join (@here os_path sample_env) ["README.md"] = "/home/dev/MathFinder/server/README.md"
  /\ @read os_path sample_env ["README.md"] [] = (Returned sample_readme, []).
Proof.
  pose proof (read_opens_directly_under_here sample_env "README.md" [] eq_refl eq_refl)
    as [Hjoin Hread].
  split; [exact Hjoin | exact (Hread sample_readme eq_refl eq_refl)].
Defined.

(** X10: on POSIX, when the script was started under a bare file name, as
    in [python setup.py], [here] is the normal form of the current
    directory. *)
Theorem here_is_current_directory_for_bare_name (env : Env) :
  Str.all not_sep (__file__ env) = true ->
  isabs (getcwd env) = true ->
  @here os_path env = normpath (getcwd env).
Proof.
  intros Hn Hc. unfold here. cbn [path_abspath path_dirname os_path].
  rewrite (dirname_sep_free _ Hn). unfold abspath, join.
  cbn [isabs fold_left]. unfold join_step.
  rewrite (isabs_nonempty _ Hc). cbn [isabs negb orb].
  destruct (Str.endswith sep (getcwd env)) eqn:He.
  - now rewrite append_empty_r.
  - apply normpath_trailing_sep; [now apply isabs_nonempty | exact He].
Qed.

Lemma here_is_current_directory_for_bare_name_witness :
  @here os_path sample_env = normpath "/home/dev/MathFinder/server".
Proof.
  exact (here_is_current_directory_for_bare_name sample_env eq_refl eq_refl).
Defined.

(** *** The directory of the script *)

Lemma endswith_inv (c : ascii) (s : string) :
  Str.endswith c s = true -> exists u, s = u ++ String c "".
Proof.
  induction s as [|a s IH]; [discriminate|].
  destruct s as [|b s].
  - simpl. intros ->%Ascii.eqb_eq. now exists "".
  - intros He. destruct (IH He) as [u Hu]. exists (String a u).
    simpl. now rewrite <- Hu.
Qed.

Lemma head_of_prefix (head name : string) :
  directory_prefix head = true -> Str.all not_sep name = true ->
  head_of (head ++ name) = head.
Proof.
  intros Hd Hn. unfold directory_prefix in Hd.
  destruct head as [|c r].
  - now apply head_of_sep_free.
  - destruct (endswith_inv sep (String c r) Hd) as [u ->].
    rewrite append_snoc. now apply head_of_app_sep.
Qed.

Lemma rstrip_by_rest (f : ascii -> bool) (s : string) :
  exists w, Str.all f w = true /\ s = Str.rstrip_by f s ++ w.
Proof.
  induction s as [|c s (w & Hw & Hs)].
  - now exists "".
  - simpl. destruct (Str.rstrip_by f s) as [|a r] eqn:Hr.
    + simpl in Hs. subst w. destruct (f c) eqn:Hc.
      * exists (String c s). simpl. now rewrite Hc, Hw.
      * now exists s.
    + exists w. split; [exact Hw|]. simpl. now rewrite Hs at 1.
Qed.

Lemma prefix_non_sep (q p w : string) :
  Str.all is_sep q = true -> Str.all is_sep p = false ->
  prefix q (p ++ w) = prefix q p.
Proof.
  revert p. induction q as [|a q IH]; intros p Hq Hp.
  - now rewrite !prefix_nil.
  - destruct p as [|b r]; [discriminate|].
    simpl in Hq. apply andb_prop in Hq as [Ha Hq].
    apply Ascii.eqb_eq in Ha. subst a.
    change (String b r ++ w) with (String b (r ++ w)).
    rewrite !prefix_cons. destruct (Ascii.eqb sep b) eqn:Hb; [|reflexivity].
    apply IH; [exact Hq|]. simpl in Hp. unfold is_sep at 1 in Hp.
    now rewrite Ascii.eqb_sym, Hb in Hp.
Qed.

Lemma prefix_before_name (q p : string) (c : ascii) (w : string) :
  Str.all is_sep q = true -> is_sep c = false ->
  prefix q (p ++ String c w) = prefix q p.
Proof.
  intros Hq Hc. revert p Hq. induction q as [|a q IH]; intros p Hq.
  - now rewrite !prefix_nil.
  - simpl in Hq. apply andb_prop in Hq as [Ha Hq].
    apply Ascii.eqb_eq in Ha. subst a. destruct p as [|b r].
    + simpl append. rewrite prefix_cons. unfold is_sep in Hc.
      now rewrite Ascii.eqb_sym, Hc.
    + change (String b r ++ String c w) with (String b (r ++ String c w)).
      rewrite !prefix_cons. now rewrite (IH r Hq).
Qed.

Lemma normpath_absolute (path : string) :
  isabs path = true ->
  normpath path
  = slashes (leading_slashes path)
    ++ String.concat "/"
         (fold_left (norm_step (leading_slashes path)) (Str.split sep path) []).
Proof.
  intros Ha. unfold normpath, leading_slashes. rewrite Ha.
  destruct path as [|c r]; [discriminate|].
  change (String c r =? "") with false. cbv iota. unfold slashes.
  destruct (prefix "//" (String c r) && negb (prefix "///" (String c r))); reflexivity.
Qed.

Lemma leading_slashes_one_or_two (path : string) :
  leading_slashes path = 1 \/ leading_slashes path = 2.
Proof.
  unfold leading_slashes.
  destruct (prefix "//" path && negb (prefix "///" path)); [now right | now left].
Qed.

(** Separators after a path that has another character do not change its
    normal form. *)
Lemma normpath_trailing_seps (p w : string) :
  isabs p = true -> Str.all is_sep p = false -> Str.all is_sep w = true ->
  normpath (p ++ w) = normpath p.
Proof.
  revert p. induction w as [|c w IH]; intros p Ha Hp Hw.
  - now rewrite append_empty_r.
  - simpl in Hw. apply andb_prop in Hw as [Hc Hw].
    apply Ascii.eqb_eq in Hc. subst c.
    rewrite <- append_snoc. rewrite IH.
    + rewrite !normpath_absolute by (try apply isabs_append; exact Ha).
      assert (Hl : leading_slashes (p ++ String sep "") = leading_slashes p).
      { unfold leading_slashes.
        now rewrite (prefix_non_sep "//" p _ eq_refl Hp),
                    (prefix_non_sep "///" p _ eq_refl Hp). }
      rewrite Hl, split_app_sep, fold_left_app. reflexivity.
    + now apply isabs_append.
    + rewrite all_app, Hp. reflexivity.
    + exact Hw.
Qed.

Lemma split_sep_free_one (name : string) :
  Str.all not_sep name = true -> Str.split sep name = [name].
Proof.
  induction name as [|c r IH]; [reflexivity|]. simpl.
  intros [Hc Hr]%andb_prop. apply negb_true_iff in Hc. unfold is_sep in Hc.
  now rewrite Hc, (IH Hr).
Qed.

Lemma file_name_inv (name : string) :
  file_name name = true ->
  Str.nonempty name = true /\ Str.all not_sep name = true
  /\ (name =? ".") = false /\ (name =? "..") = false.
Proof.
  unfold file_name. intros H.
  apply andb_prop in H as [H Hdd]. apply andb_prop in H as [H Hd].
  apply andb_prop in H as [Hne Hall].
  apply negb_true_iff in Hd. apply negb_true_iff in Hdd. now repeat split.
Qed.

Lemma file_name_relative (name : string) : file_name name = true -> isabs name = false.
Proof.
  intros (Hne & Hall & _)%file_name_inv. destruct name as [|c r]; [reflexivity|].
  simpl in Hall. apply andb_prop in Hall as [Hc _]. now apply negb_true_iff in Hc.
Qed.

Lemma norm_step_name (n : nat) (comps : list string) (name : string) :
  file_name name = true -> norm_step n comps name = (comps ++ [name])%list.
Proof.
  intros (Hne & _ & Hd & Hdd)%file_name_inv. unfold norm_step.
  destruct name as [|c r]; [discriminate|].
  change (String c r =? "") with false. now rewrite Hd, Hdd.
Qed.

Lemma concat_snoc (comps : list string) (name : string) :
  String.concat "/" (comps ++ [name])
  = match comps with
    | [] => name
    | _ :: _ => String.concat "/" comps ++ String sep name
    end.
Proof.
  induction comps as [|x l IH]; [reflexivity|].
  change ((x :: l) ++ [name])%list with (x :: (l ++ [name]))%list.
  destruct l as [|y l].
  - reflexivity.
  - change (String.concat "/" (x :: (y :: l) ++ [name]))
      with (x ++ String sep (String.concat "/" ((y :: l) ++ [name]))).
    rewrite IH.
    change (String.concat "/" (x :: y :: l))
      with (x ++ String sep (String.concat "/" (y :: l))).
    now rewrite append_assoc.
Qed.

(** Joining a relative part to a normal absolute path. *)
Lemma join_normal (n : nat) (comps : list string) (part : string) :
  n = 1 \/ n = 2 -> Forall component comps -> isabs part = false ->
  join (slashes n ++ String.concat "/" comps) [part]
  = slashes n ++ match comps with
                 | [] => part
                 | _ :: _ => String.concat "/" comps ++ String sep part
                 end.
Proof.
  intros Hn Hcs Hrel.
  destruct (slashes_facts n (String.concat "/" comps) Hn) as (_ & Hne & _ & Hend).
  unfold join. cbn [fold_left]. unfold join_step. rewrite Hrel, Hne. cbn [negb orb].
  destruct comps as [|x l].
  - destruct Hn as [-> | ->]; reflexivity.
  - destruct (concat_components (x :: l)) as [Hbn Hbe]; [discriminate | exact Hcs |].
    rewrite (Hend Hbn), Hbe. apply append_assoc.
Qed.

(** The normal form of a file directly below a directory is its name
    joined to the normal form of the directory. *)
Lemma normpath_file_in_directory (dir name : string) :
  isabs dir = true -> Str.endswith sep dir = true -> file_name name = true ->
  normpath (dir ++ name) = join (normpath dir) [name].
Proof.
  intros Ha He Hf.
  destruct (file_name_inv name Hf) as (Hne & Hall & _).
  assert (Hl : leading_slashes (dir ++ name) = leading_slashes dir).
  { destruct name as [|c r]; [discriminate|]. simpl in Hall.
    apply andb_prop in Hall as [Hc _]. apply negb_true_iff in Hc.
    unfold leading_slashes.
    now rewrite (prefix_before_name "//" dir c r eq_refl Hc),
                (prefix_before_name "///" dir c r eq_refl Hc). }
  rewrite !normpath_absolute by (try apply isabs_append; exact Ha). rewrite Hl.
  pose proof (leading_slashes_one_or_two dir) as Hn.
  set (n := leading_slashes dir) in *.
  destruct (endswith_inv sep dir He) as [u Hu].
  rewrite Hu. rewrite append_snoc, !split_app_sep, !fold_left_app.
  rewrite (split_sep_free_one name Hall).
  change (Str.split sep "") with [""]. cbn [fold_left].
  rewrite (norm_step_name _ _ name Hf).
  change (norm_step n (fold_left (norm_step n) (Str.split sep u) []) "")
    with (fold_left (norm_step n) (Str.split sep u) []).
  rewrite concat_snoc. symmetry.
  apply join_normal.
  - exact Hn.
  - apply fold_norm_components; [apply split_sep_free | constructor].
  - now apply file_name_relative.
Qed.

Lemma dirname_of_script (head name : string) :
  directory_prefix head = true -> Str.all not_sep name = true ->
  dirname (head ++ name)
  = if Str.nonempty head && negb (Str.all is_sep head)
    then Str.rstrip_by is_sep head
    else head.
Proof.
  intros Hd Hn. unfold dirname. now rewrite (head_of_prefix head name Hd Hn).
Qed.

Lemma join_step_relative (a b : string) :
  isabs b = false ->
  join_step a b
  = if negb (Str.nonempty a) || Str.endswith sep a then a ++ b else a ++ String sep b.
Proof. intros Hb. unfold join_step. now rewrite Hb. Qed.

Lemma join_step_append (a b w : string) :
  Str.nonempty b = true -> isabs b = false ->
  join_step a (b ++ w) = join_step a b ++ w.
Proof.
  intros Hne Hb.
  assert (Hbw : isabs (b ++ w) = false) by (destruct b; [discriminate | exact Hb]).
  rewrite !join_step_relative by assumption.
  destruct (negb (Str.nonempty a) || Str.endswith sep a).
  - now rewrite append_assoc.
  - rewrite append_assoc. reflexivity.
Qed.

(** [abspath] of the directory part of a script path is [abspath] of
    everything that precedes the file name. *)
Lemma abspath_dirname_prefix (cwd head : string) :
  isabs cwd = true ->
  abspath cwd (if Str.nonempty head && negb (Str.all is_sep head)
               then Str.rstrip_by is_sep head
               else head)
  = abspath cwd head.
Proof.
  intros Hc.
  destruct (Str.nonempty head && negb (Str.all is_sep head)) eqn:Hcond; [|reflexivity].
  apply andb_prop in Hcond as [_ Hns]. apply negb_true_iff in Hns.
  destruct (rstrip_by_rest is_sep head) as (w & Hw & Hs).
  remember (Str.rstrip_by is_sep head) as d eqn:Hd. clear Hd. subst head.
  rewrite all_app, Hw, andb_true_r in Hns.
  assert (Hne : Str.nonempty d = true) by (destruct d; [discriminate | reflexivity]).
  unfold abspath.
  assert (Hdw : isabs (d ++ w) = isabs d) by (destruct d; [discriminate | reflexivity]).
  rewrite Hdw. destruct (isabs d) eqn:Ha.
  - symmetry. now apply normpath_trailing_seps.
  - unfold join. cbn [fold_left]. rewrite (join_step_append cwd d w Hne Ha).
    symmetry. apply normpath_trailing_seps; [now apply join_step_isabs | | exact Hw].
    rewrite (join_step_relative cwd d Ha).
    destruct (negb (Str.nonempty cwd) || Str.endswith sep cwd).
    + rewrite all_app, Hns. apply andb_false_r.
    + change (cwd ++ String sep d) with (cwd ++ (String sep "" ++ d)).
      rewrite !all_app, Hns. now rewrite !andb_false_r.
Qed.

(** The absolute form of a script path is the absolute form of what
    precedes the file name, followed by the file name. *)
Lemma script_path_absolute (cwd head name : string) :
  isabs cwd = true -> directory_prefix head = true -> file_name name = true ->
  let dir := if isabs head then head else join cwd [head] in
  (if isabs (head ++ name) then head ++ name else join cwd [head ++ name]) = dir ++ name
  /\ isabs dir = true
  /\ Str.endswith sep dir = true.
Proof.
  intros Hc Hd Hf. cbv zeta.
  pose proof (file_name_relative name Hf) as Hrel.
  pose proof (isabs_nonempty cwd Hc) as Hcn.
  unfold directory_prefix in Hd. unfold join. cbn [fold_left].
  destruct head as [|c r].
  - simpl append. rewrite Hrel. cbn [isabs].
    rewrite !join_step_relative by (reflexivity || exact Hrel).
    rewrite Hcn. cbn [negb orb]. destruct (Str.endswith sep cwd) eqn:He.
    + rewrite append_empty_r. split; [reflexivity|]. now split.
    + rewrite append_snoc. split; [reflexivity|].
      split; [now apply isabs_append|]. now rewrite endswith_app.
  - cbn [Str.nonempty negb orb] in Hd.
    change (isabs (String c r ++ name)) with (isabs (String c r)).
    destruct (isabs (String c r)) eqn:Ha.
    + split; [reflexivity|]. now split.
    + rewrite (join_step_append cwd (String c r) name eq_refl Ha).
      split; [reflexivity|]. split; [now apply join_step_isabs|].
      rewrite (join_step_relative cwd (String c r) Ha).
      destruct (negb (Str.nonempty cwd) || Str.endswith sep cwd).
      * now rewrite endswith_app.
      * change (cwd ++ String sep (String c r))
          with (cwd ++ (String sep "" ++ String c r)).
        rewrite <- append_assoc. now rewrite endswith_app.
Qed.

(** [here], for a script path of a directory prefix and a file name. *)
Lemma here_of_script (env : Env) (head name : string) :
  isabs (getcwd env) = true -> directory_prefix head = true ->
  file_name name = true -> __file__ env = head ++ name ->
  @here os_path env = abspath (getcwd env) head.
Proof.
  intros Hc Hd Hf Hfile.
  destruct (file_name_inv name Hf) as (_ & Hall & _).
  unfold here. cbn [path_abspath path_dirname os_path].
  rewrite Hfile, (dirname_of_script head name Hd Hall).
  now apply abspath_dirname_prefix.
Qed.

(** The script lies directly in that directory. *)
Lemma script_in_directory (cwd head name : string) :
  isabs cwd = true -> directory_prefix head = true -> file_name name = true ->
  join (abspath cwd head) [name] = abspath cwd (head ++ name).
Proof.
  intros Hc Hd Hf.
  destruct (script_path_absolute cwd head name Hc Hd Hf) as (Hpath & Ha & He).
  unfold abspath. rewrite Hpath.
  symmetry. now apply normpath_file_in_directory.
Qed.

(** C7: on POSIX, let the script have been started under a path made of a
    directory prefix and the file name, with an absolute current directory,
    and let [dir] be the absolute form of that prefix.  Then [dir] is the
    directory containing the script: the file name joined to it is the
    absolute path of the script.  For every tuple of parts, when [dir]
    joined with the parts names a file, [read] returns the whole text of
    that file and has no other effect.  Consequently, when [README.md] in
    [dir] is a file, the one call of [setup] has that file's whole text as
    [long_description]. *)
Theorem read_returns_whole_file (env : Env) (head name : string) :
  isabs (getcwd env) = true ->
  directory_prefix head = true ->
  file_name name = true ->
  __file__ env = head ++ name ->
  let dir := abspath (getcwd env) head in
  join dir [name] = abspath (getcwd env) (__file__ env)
  /\ (forall parts text calls,
      lookup env (join dir parts) = Some (RegularFile text) ->
      @read os_path env parts calls = (Returned text, calls))
  /\ (forall text,
      lookup env (join dir ["README.md"]) = Some (RegularFile text) ->
      exists kw,
        snd (@setup_py os_path env) = [kw]
        /\ kwarg kw "long_description" = Some (VStr text)).
Proof.
  intros Hc Hd Hf Hfile dir. subst dir.
  pose proof (here_of_script env head name Hc Hd Hf Hfile) as Hhere.
  split; [|split].
  - rewrite Hfile. now apply script_in_directory.
  - intros parts text calls Hfound. apply read_run_file.
    cbn [path_join os_path]. now rewrite Hhere.
  - intros text Hfound. exists (setup_arguments env entrypoint text).
    split; [|reflexivity]. unfold setup_py. apply script_run_file.
    cbn [path_join os_path]. now rewrite Hhere.
Qed.

Lemma read_returns_whole_file_witness :
  join "/home/dev/MathFinder/server" ["setup.py"]
  = abspath "/home/dev/MathFinder" "server/setup.py"
  /\ @read os_path other_env ["README.md"] [] = (Returned sample_readme, [])
  /\ exists kw,
      snd (@setup_py os_path other_env) = [kw]
      /\ kwarg kw "long_description" = Some (VStr sample_readme).
Proof.
  pose proof (read_returns_whole_file other_env "server/" "setup.py"
                eq_refl eq_refl eq_refl eq_refl) as H.
  cbv zeta in H. destruct H as (Hin & Hread & Hlong).
  split; [exact Hin|]. split.
  - exact (Hread ["README.md"] sample_readme [] eq_refl).
  - exact (Hlong sample_readme eq_refl).
Defined.

End Posix.
